(** * simulate.py: flight-simulation configuration of the RaiderX rocket

    A shallow embedding of [tools/simulate.py] and the properties its
    specification states about it.

    The script is written against Python floats.  Its arithmetic is embedded
    once, over an interface [PyFloat] of the operations the script uses, and
    read at two instances:
    - [binary64]: IEEE 754 double precision, the arithmetic CPython runs.
      Statements about the script's constants are evaluated here.
    - [ideal]: the real numbers, the arithmetic the specification's
      algebraic identities ("for all geometries ...") are written in.

    The classes [Environment], [SolidMotor] and [Rocket] belong to the
    third-party package rocketpy; the script only calls them.  They are
    modelled as records holding what the script passes in. *)

From Stdlib Require Import ZArith QArith Qabs Reals Lra Lia List String Bool.
From Stdlib Require Import Floats.
Import ListNotations.

Set Warnings "-inexact-float".

(** ** Exceptions and results *)

(** An instance of Python's [Exception], which is what [except Exception]
    catches: its class name and [str(exc)].  Signals outside that class
    (a keyboard interrupt, an exit request) are not failures of a call and are
    not modelled. *)
Record Exception : Type := mkException {
  exc_class : string;
  exc_str : string
}.

Definition ZeroDivisionError : Exception :=
  mkException "ZeroDivisionError" "float division by zero".

Definition OverflowError : Exception :=
  mkException "OverflowError" "(34, 'Numerical result out of range')".

(** The outcome of evaluating an expression: a value, or a raised exception. *)
Inductive result (A : Type) : Type :=
  | Ok (a : A)
  | Raise (e : Exception).

Arguments Ok {A} a.
Arguments Raise {A} e.

Class Monad (M : Type -> Type) : Type := {
  ret : forall {A}, A -> M A;
  bind : forall {A B}, M A -> (A -> M B) -> M B
}.

Declare Scope monad_scope.
Delimit Scope monad_scope with monad.
Notation "x <- m ;; k" := (bind m (fun x => k))
  (at level 61, m at next level, right associativity) : monad_scope.
Notation "m ;;; k" := (bind m (fun _ => k))
  (at level 61, right associativity) : monad_scope.
Local Open Scope monad_scope.

#[export] Instance result_monad : Monad result := {
  ret := fun A a => Ok a;
  bind := fun A B m k => match m with Ok a => k a | Raise e => Raise e end
}.

Definition is_ok {A} (r : result A) : bool :=
  match r with Ok _ => true | Raise _ => false end.

(** ** The float operations the script uses *)

Class PyFloat (F : Type) : Type := {
  (** a decimal literal of the source text, such as [3.019] *)
  of_dec : Q -> F;
  (** an [int] operand of a mixed [int]/[float] operation *)
  of_int : Z -> result F;
  (** [math.pi] *)
  pi : F;
  fmul : F -> F -> F;
  fadd : F -> F -> F;
  fsub : F -> F -> F;
  (** [x / y]; raises [ZeroDivisionError] when [y == 0] *)
  truediv : F -> F -> result F;
  (** [x ** 2]; raises [OverflowError] when the result is out of range *)
  pow2 : F -> result F;
  (** [x < y] and [x <= y] *)
  fltb : F -> F -> bool;
  fleb : F -> F -> bool
}.

Declare Scope py_scope.
Delimit Scope py_scope with py.
Infix "*" := fmul : py_scope.
Infix "+" := fadd : py_scope.
Infix "-" := fsub : py_scope.
Infix "<?" := fltb : py_scope.
Infix "<=?" := fleb : py_scope.
Notation "x < y" := (fltb x y = true) : py_scope.
Notation "x <= y" := (fleb x y = true) : py_scope.

(** *** IEEE 754 binary64, as CPython computes *)

Module Binary64.

(** [float(z)]: round to nearest, ties to even; too large an [int] raises. *)
Definition of_Z (z : Z) : float :=
  SF2Prim (binary_normalize prec emax z 0 false).

Definition float_of_int (z : Z) : result float :=
  let x := of_Z z in
  if is_infinity x then Raise OverflowError else Ok x.

(** A decimal literal [n / 10^k] is read as the double nearest to it.  The
    correctly rounded quotient of two exactly represented integers is that
    double; every literal of the script has [n < 2^53] and [k <= 22]. *)
Definition float_of_dec (q : Q) : float :=
  (of_Z (Qnum q) / of_Z (Zpos (Qden q)))%float.

(** [math.pi], the double nearest to the real number. *)
Definition float_pi : float := 0x1.921fb54442d18p+1%float.

Definition float_truediv (x y : float) : result float :=
  if (y =? 0)%float then Raise ZeroDivisionError else Ok (x / y)%float.

(** [x ** 2] is C's [pow(x, 2.0)], read here as the correctly rounded
    product [x * x]; CPython turns a finite operand with an infinite result
    into [OverflowError].  A C library's [pow] may differ from the rounded
    product in the last place at some operands; at every operand the
    statements below evaluate (0.04, 0.01, 0.6096, 1.3716 and the zero,
    underflowing and overflowing ones) the two agree. *)
Definition float_pow2 (x : float) : result float :=
  let r := (x * x)%float in
  if is_finite x && is_infinity r then Raise OverflowError else Ok r.

(** The rational number a finite double denotes; [None] for infinities and
    NaN. *)
Definition to_Q (x : float) : option Q :=
  match Prim2SF x with
  | S754_zero _ => Some 0%Q
  | S754_finite s m e =>
      let n := if s then Z.neg m else Z.pos m in
      Some (if (0 <=? e)%Z then inject_Z (n * 2 ^ e) else Qmake n (2 ^ Z.to_pos (- e)))
  | _ => None
  end.

End Binary64.

#[export] Instance binary64 : PyFloat float := {
  of_dec := Binary64.float_of_dec;
  of_int := Binary64.float_of_int;
  pi := Binary64.float_pi;
  fmul := PrimFloat.mul;
  fadd := PrimFloat.add;
  fsub := PrimFloat.sub;
  truediv := Binary64.float_truediv;
  pow2 := Binary64.float_pow2;
  fltb := PrimFloat.ltb;
  fleb := PrimFloat.leb
}.

(** *** Real numbers *)

Module Ideal.

Definition real_truediv (x y : R) : result R :=
  if Req_dec_T y 0 then Raise ZeroDivisionError else Ok (x / y)%R.

Definition real_ltb (x y : R) : bool :=
  if Rlt_dec x y then true else false.

Definition real_leb (x y : R) : bool :=
  if Rle_dec x y then true else false.

End Ideal.

#[export] Instance ideal : PyFloat R := {
  of_dec := Q2R;
  of_int := fun z => Ok (IZR z);
  pi := PI;
  fmul := Rmult;
  fadd := Rplus;
  fsub := Rminus;
  truediv := Ideal.real_truediv;
  pow2 := fun x => Ok (x ^ 2)%R;
  fltb := Ideal.real_ltb;
  fleb := Ideal.real_leb
}.

(** ** Records of the rocketpy objects the script builds *)

(** What [trigger=] receives: a name such as ["apogee"], or an altitude above
    ground level in metres. *)
Inductive Trigger (F : Type) : Type :=
  | TriggerName (name : string)
  | TriggerAltitude (height : F).

Arguments TriggerName {F} name.
Arguments TriggerAltitude {F} height.

(** The keyword arguments of [SolidMotor(...)]. *)
Record SolidMotor (F : Type) : Type := mkSolidMotor {
  thrust_source : list (F * F);
  dry_mass : F;
  dry_inertia : F * F * F;
  nozzle_radius : F;
  grain_number : Z;
  grain_density : F;
  grain_outer_radius : F;
  grain_initial_inner_radius : F;
  grain_initial_height : F;
  grain_separation : F;
  grains_center_of_mass_position : F;
  center_of_dry_mass_position : F;
  nozzle_position : F;
  burn_time : F;
  throat_radius : F
}.

Arguments mkSolidMotor {F}.
Arguments thrust_source {F}.
Arguments grain_number {F}.
Arguments grain_density {F}.
Arguments grain_outer_radius {F}.
Arguments grain_initial_inner_radius {F}.
Arguments grain_initial_height {F}.
Arguments burn_time {F}.

(** The keyword arguments of [add_parachute(...)]. *)
Record Parachute (F : Type) : Type := mkParachute {
  parachute_name : string;
  cd_s : F;
  trigger : Trigger F;
  sampling_rate : Z;
  lag : F;
  noise : Z * F * F
}.

Arguments mkParachute {F}.
Arguments parachute_name {F}.
Arguments cd_s {F}.
Arguments trigger {F}.
Arguments sampling_rate {F}.
Arguments lag {F}.
Arguments noise {F}.

(** One attachment to a rocket, with the arguments of the call that made it. *)
Inductive Component (F : Type) : Type :=
  | MotorAt (motor : SolidMotor F) (position : F)
  | Nose (length : F) (kind : string) (position : F) (name : string)
  | TrapezoidalFins (n : Z) (root_chord tip_chord span position cant_angle : F)
      (name : string)
  | Chute (p : Parachute F).

Arguments MotorAt {F}.
Arguments Nose {F}.
Arguments TrapezoidalFins {F}.
Arguments Chute {F}.

(** Modelled from the spec: rocketpy's [Rocket] is not part of this
    repository.  The record holds the keyword arguments of [Rocket(...)] and
    the "ordered surface list" of section 4.4, here [components]. *)
Record Rocket (F : Type) : Type := mkRocket {
  radius : F;
  mass : F;
  inertia : F * F * F;
  power_off_drag : F;
  power_on_drag : F;
  center_of_mass_without_motor : F;
  coordinate_system_orientation : string;
  components : list (Component F)
}.

Arguments mkRocket {F}.
Arguments radius {F}.
Arguments mass {F}.
Arguments inertia {F}.
Arguments power_off_drag {F}.
Arguments power_on_drag {F}.
Arguments center_of_mass_without_motor {F}.
Arguments coordinate_system_orientation {F}.
Arguments components {F}.

(** Modelled from the spec: the attachment methods of rocketpy's [Rocket].
    "Each attachment is a pure append to the Rocket's ordered surface list"
    (section 4.4). *)
Definition attach {F} (rocket : Rocket F) (c : Component F) : Rocket F :=
  mkRocket (radius rocket) (mass rocket) (inertia rocket)
    (power_off_drag rocket) (power_on_drag rocket)
    (center_of_mass_without_motor rocket)
    (coordinate_system_orientation rocket)
    (components rocket ++ [c]).

(** Modelled from the spec: [Rocket.add_motor] appends the motor. *)
Definition add_motor {F} (rocket : Rocket F) (motor : SolidMotor F)
    (position : F) : Rocket F :=
  attach rocket (MotorAt motor position).

(** Modelled from the spec: [Rocket.add_nose] appends the nose cone. *)
Definition add_nose {F} (rocket : Rocket F) (length : F) (kind : string)
    (position : F) (name : string) : Rocket F :=
  attach rocket (Nose length kind position name).

(** Modelled from the spec: [Rocket.add_trapezoidal_fins] appends the fin
    set. *)
Definition add_trapezoidal_fins {F} (rocket : Rocket F) (n : Z)
    (root_chord tip_chord span position cant_angle : F) (name : string)
    : Rocket F :=
  attach rocket
    (TrapezoidalFins n root_chord tip_chord span position cant_angle name).

(** Modelled from the spec: [Rocket.add_parachute] appends the recovery
    device, a record of its arguments. *)
Definition add_parachute {F} (rocket : Rocket F) (name : string) (cd_s : F)
    (trigger : Trigger F) (sampling_rate : Z) (lag : F) (noise : Z * F * F)
    : Rocket F :=
  attach rocket (Chute (mkParachute name cd_s trigger sampling_rate lag noise)).

(** ** The script's constants and builders *)

Section Design.

Context {F : Type} `{PyFloat F}.

Local Open Scope Q_scope.
Local Open Scope py_scope.

(** Launch site: Boys Ranch near Amarillo, TX. *)
Definition LAUNCH_LATITUDE : F := of_dec 35.5.
Definition LAUNCH_LONGITUDE : F := of_dec (-102.3).
Definition LAUNCH_ELEVATION_M : F := of_dec 971.1.
Definition LAUNCH_DATETIME_UTC : Z * Z * Z * Z := (2025, 10, 12, 18)%Z.

(** Time in seconds, thrust in newtons. *)
Definition THRUST_CURVE : list (F * F) :=
  map (fun p : Q * Q => (of_dec (fst p), of_dec (snd p))) [
    (0.0, 0.0);
    (0.05, 1079.788);
    (0.1, 1088.74);
    (0.15, 1097.568);
    (0.2, 1106.256);
    (0.25, 1114.817);
    (0.3, 1123.25);
    (0.35, 1131.537);
    (0.4, 1139.693);
    (0.45, 1147.717);
    (0.6, 1170.926);
    (0.75, 1192.838);
    (0.9, 1213.417);
    (1.05, 1232.629);
    (1.2, 1250.441);
    (1.35, 1266.824);
    (1.5, 1281.753);
    (1.65, 1295.201);
    (1.8, 1307.148);
    (1.95, 1317.574);
    (2.1, 1326.462);
    (2.25, 1333.799);
    (2.4, 1339.572);
    (2.55, 1343.772);
    (2.7, 1346.392);
    (2.85, 1347.429);
    (3.0, 1346.88);
    (3.15, 1344.745);
    (3.3, 1341.029);
    (3.45, 1335.738);
    (3.6, 1328.878);
    (3.75, 1320.462);
    (3.9, 1310.502);
    (4.05, 1299.015);
    (4.2, 1286.018);
    (4.35, 1271.533);
    (4.5, 1255.583);
    (4.53, 0.0)
  ].

Definition MOTOR_DRY_MASS : F := of_dec 2.871.
Definition PROP_MASS : F := of_dec 3.019.
Definition MOTOR_DRY_INERTIA : F * F * F :=
  (of_dec 0.0697, of_dec 0.0697, of_dec 0.0034).
Definition GRAIN_COUNT : Z := 3.
Definition GRAIN_OUTER_RADIUS : F := of_dec 0.04.
Definition GRAIN_INNER_RADIUS : F := of_dec 0.01.
Definition GRAIN_LENGTH : F := of_dec 0.12.

(** The initialiser of [GRAIN_DENSITY] with its five constants as
    arguments:
    [mass / (count * pi * (outer**2 - inner**2) * length)]. *)
Definition derive_grain_density (propellant_mass : F) (grain_count : Z)
    (outer_radius inner_radius grain_length : F) : result F :=
  n <- of_int grain_count ;;
  ro2 <- pow2 outer_radius ;;
  ri2 <- pow2 inner_radius ;;
  truediv propellant_mass (n * pi * (ro2 - ri2) * grain_length).

(** A module constant whose initialiser raises aborts the import; the
    constant is kept as a [result] and its users bind it. *)
Definition GRAIN_DENSITY : result F :=
  derive_grain_density PROP_MASS GRAIN_COUNT GRAIN_OUTER_RADIUS
    GRAIN_INNER_RADIUS GRAIN_LENGTH.

Definition GRAIN_SEPARATION : F := of_dec 0.005.
Definition MOTOR_CG_FROM_NOZZLE : F := of_dec 0.267.
Definition NOZZLE_RADIUS : F := of_dec 0.02.
Definition THROAT_RADIUS : F := of_dec 0.011.
Definition BURN_TIME : F := of_dec 4.53.

(** Rocket geometry (tail at 0 m, nose tip near 2.5 m). *)
Definition ROCKET_RADIUS : F := of_dec 0.051054.
Definition ROCKET_LENGTH : F := of_dec 2.5.
Definition ROCKET_DRY_MASS : F := of_dec 10.984.
Definition ROCKET_DRY_INERTIA : F * F * F :=
  (of_dec 5.72, of_dec 5.72, of_dec 0.015).
Definition ROCKET_DRY_CG_FROM_TAIL : F := of_dec 0.998.

Definition FIN_ROOT_CHORD : F := of_dec 0.3334.
Definition FIN_TIP_CHORD : F := of_dec 0.0510.
Definition FIN_SPAN : F := of_dec 0.1270.
Definition FIN_ROOT_LEADING_EDGE_FROM_TAIL : F := of_dec 0.38.

(** The initialiser shared by [REEFED_CD_S] and [MAIN_CD_S] with its two
    constants as arguments: [cd * pi * (diameter / 2) ** 2]. *)
Definition derive_drag_area (cd diameter : F) : result F :=
  two <- of_int 2 ;;
  half <- truediv diameter two ;;
  sq <- pow2 half ;;
  ret (cd * pi * sq).

Definition REEFED_CD : F := of_dec 1.2.
Definition REEFED_DIAMETER : F := of_dec 1.2192.
Definition REEFED_CD_S : result F := derive_drag_area REEFED_CD REEFED_DIAMETER.
Definition MAIN_CD : F := of_dec 1.5.
Definition MAIN_DIAMETER : F := of_dec 2.7432.
Definition MAIN_CD_S : result F := derive_drag_area MAIN_CD MAIN_DIAMETER.

Definition build_motor : result (SolidMotor F) :=
  density <- GRAIN_DENSITY ;;
  ret {|
    thrust_source := THRUST_CURVE;
    dry_mass := MOTOR_DRY_MASS;
    dry_inertia := MOTOR_DRY_INERTIA;
    nozzle_radius := NOZZLE_RADIUS;
    grain_number := GRAIN_COUNT;
    grain_density := density;
    grain_outer_radius := GRAIN_OUTER_RADIUS;
    grain_initial_inner_radius := GRAIN_INNER_RADIUS;
    grain_initial_height := GRAIN_LENGTH;
    grain_separation := GRAIN_SEPARATION;
    grains_center_of_mass_position := MOTOR_CG_FROM_NOZZLE;
    center_of_dry_mass_position := MOTOR_CG_FROM_NOZZLE;
    nozzle_position := of_dec 0.0;
    burn_time := BURN_TIME;
    throat_radius := THROAT_RADIUS
  |}.

(** The rocket after [Rocket(...)], before anything is attached. *)
Definition base_rocket : Rocket F :=
  {|
    radius := ROCKET_RADIUS;
    mass := ROCKET_DRY_MASS;
    inertia := ROCKET_DRY_INERTIA;
    power_off_drag := of_dec 0.6;
    power_on_drag := of_dec 0.5;
    center_of_mass_without_motor := ROCKET_DRY_CG_FROM_TAIL;
    coordinate_system_orientation := "tail_to_nose";
    components := []
  |}.

Definition build_rocket (motor : SolidMotor F) : result (Rocket F) :=
  reefed_cd_s <- REEFED_CD_S ;;
  main_cd_s <- MAIN_CD_S ;;
  let rocket := base_rocket in
  let rocket := add_motor rocket motor (of_dec 0.0) in
  let rocket :=
    add_nose rocket (of_dec 0.4953) "ogive" ROCKET_LENGTH "Fiberglass Nose" in
  let rocket :=
    add_trapezoidal_fins rocket 3 FIN_ROOT_CHORD FIN_TIP_CHORD FIN_SPAN
      FIN_ROOT_LEADING_EDGE_FROM_TAIL (of_dec 0.0) "Aluminum Fins" in
  let rocket :=
    add_parachute rocket "reefed" reefed_cd_s (TriggerName "apogee") 105
      (of_dec 1.5) (0%Z, of_dec 8.3, of_dec 0.5) in
  let rocket :=
    add_parachute rocket "main" main_cd_s (TriggerAltitude (of_dec 305.0)) 105
      (of_dec 1.5) (0%Z, of_dec 8.3, of_dec 0.5) in
  ret rocket.

End Design.

(** ** The environment builder *)

(** The two atmospheric modes of an environment descriptor. *)
Inductive AtmosphericModel : Type :=
  | Forecast (file : option string)
  | StandardAtmosphere.

(** Modelled from the spec: rocketpy's [Environment] is not part of this
    repository.  The record is the EnvironmentDescriptor of section 3:
    location, date and atmospheric mode; the mode is unset until
    [set_atmospheric_model] succeeds. *)
Record Environment (F : Type) : Type := mkEnvironment {
  latitude : F;
  longitude : F;
  elevation : F;
  date : option (Z * Z * Z * Z);
  atmospheric_model : option AtmosphericModel
}.

Arguments mkEnvironment {F}.
Arguments latitude {F}.
Arguments longitude {F}.
Arguments elevation {F}.
Arguments date {F}.
Arguments atmospheric_model {F}.

(** What a run leaves outside the process: the lines printed, and how many
    forecast downloads were requested. *)
Record World : Type := mkWorld {
  stdout : list string;
  forecast_requests : nat
}.

Definition initial_world : World := mkWorld [] 0.

(** The answer of the forecast data provider to one download request. *)
Inductive Reply : Type :=
  | Served
  | Failed (exc : Exception).

(** A statement running in the world: a value or a raised exception, and the
    world it leaves. *)
Definition IO (A : Type) : Type := World -> result A * World.

#[export] Instance IO_monad : Monad IO := {
  ret := fun A a w => (Ok a, w);
  bind := fun A B m k w =>
    match m w with
    | (Ok a, w') => k a w'
    | (Raise e, w') => (Raise e, w')
    end
}.

Definition print (line : string) : IO unit :=
  fun w => (Ok tt, mkWorld (stdout w ++ [line]) (forecast_requests w)).

(** [try: body except Exception as exc: handler(exc)] *)
Definition try_except {A} (body : IO A) (handler : Exception -> IO A) : IO A :=
  fun w =>
    match body w with
    | (Ok a, w') => (Ok a, w')
    | (Raise exc, w') => handler exc w'
    end.

Section EnvironmentBuilder.

Context {F : Type} `{PyFloat F}.

(** The data provider: its answer to the [n]-th download request of the
    run, counted from 0. *)
Variable provider : nat -> Reply.

(** Modelled from the spec: [Environment.set_date] records the date and
    leaves the rest of the descriptor as it is. *)
Definition set_date (env : Environment F) (d : Z * Z * Z * Z)
    : Environment F :=
  mkEnvironment (latitude env) (longitude env) (elevation env) (Some d)
    (atmospheric_model env).

(** The descriptor [env] with its atmospheric mode set to [m]. *)
Definition with_model (env : Environment F) (m : AtmosphericModel)
    : Environment F :=
  mkEnvironment (latitude env) (longitude env) (elevation env) (date env)
    (Some m).

(** Modelled from the spec: rocketpy's [Environment.set_atmospheric_model]
    (sections 4.2 and 6).  A forecast model asks the data provider once and
    raises the provider's error when it fails; the standard atmosphere is
    deterministic and needs no data. *)
Definition set_atmospheric_model (env : Environment F) (type : string)
    (file : option string) : IO (Environment F) :=
  if String.eqb type "Forecast" then
    fun w =>
      let w' := mkWorld (stdout w) (S (forecast_requests w)) in
      match provider (forecast_requests w) with
      | Served => (Ok (with_model env (Forecast file)), w')
      | Failed exc => (Raise exc, w')
      end
  else if String.eqb type "standard_atmosphere" then
    ret (with_model env StandardAtmosphere)
  else
    fun w => (Raise (mkException "ValueError" "Unknown model type."), w).

Definition build_environment : IO (Environment F) :=
  let env :=
    mkEnvironment LAUNCH_LATITUDE LAUNCH_LONGITUDE LAUNCH_ELEVATION_M
      None None in
  let env := set_date env LAUNCH_DATETIME_UTC in
  try_except
    (set_atmospheric_model env "Forecast" (Some "GFS"%string))
    (fun exc =>
       print ("Warning: could not download forecast data (" ++ exc_str exc
              ++ "). Using ISA instead.") ;;;
       set_atmospheric_model env "standard_atmosphere" None).

(** The descriptor [build_environment] holds before it chooses the
    atmospheric model. *)
Definition launch_site : Environment F :=
  mkEnvironment LAUNCH_LATITUDE LAUNCH_LONGITUDE LAUNCH_ELEVATION_M
    (Some LAUNCH_DATETIME_UTC) None.

End EnvironmentBuilder.

(** ** The recovery trigger evaluator *)

(** The parachutes of a rocket, in the order they were attached. *)
Fixpoint parachutes_of {F} (cs : list (Component F)) : list (Parachute F) :=
  match cs with
  | [] => []
  | Chute p :: cs' => p :: parachutes_of cs'
  | _ :: cs' => parachutes_of cs'
  end.

Definition find_parachute {F} (name : string) (rocket : Rocket F)
    : option (Parachute F) :=
  find (fun p => String.eqb (parachute_name p) name)
    (parachutes_of (components rocket)).

(** Modelled from the spec: the Recovery Trigger Evaluator of section 4.5.
    It runs inside rocketpy's flight integration, which is not part of this
    repository; the script only configures it, through [add_parachute]. *)
Module RecoveryTrigger.

Inductive Status : Type :=
  | Armed
  | Triggered
  | Deployed.

(** Position in [Armed -> Triggered -> Deployed]. *)
Definition rank (s : Status) : nat :=
  match s with
  | Armed => 0
  | Triggered => 1
  | Deployed => 2
  end.

Section Evaluator.

Context {F : Type} `{PyFloat F}.

Local Open Scope py_scope.

(** Modelled from the spec: one sensor sample, as the integrator hands it
    over at a tick. *)
Record Sample : Type := mkSample {
  time : F;
  altitude : F;
  vertical_velocity : F
}.

(** Modelled from the spec: a recovery device in flight, that is its
    parachute, the burn-out time of the motor, the last sample seen while
    armed, and the time of the tick at which it triggered. *)
Record Device : Type := mkDevice {
  chute : Parachute F;
  burn_out : F;
  previous : option Sample;
  triggered_at : option F
}.

(** Modelled from the spec: a device starts Armed, having seen no sample. *)
Definition arm (p : Parachute F) (motor : SolidMotor F) : Device :=
  mkDevice p (burn_time motor) None None.

Definition zero : F := of_dec 0.

(** Modelled from the spec: the evaluation contract of section 4.5, which
    rocketpy implements and the script only configures.  An apogee trigger
    fires when vertical velocity goes from positive at the previous tick
    to non-positive at this one, and not before motor burnout; an altitude
    trigger fires when the altitude descends through the threshold with
    negative velocity. *)
Definition evaluate (d : Device) (s : Sample) : bool :=
  match previous d with
  | None => false
  | Some p =>
      match trigger (chute d) with
      | TriggerName name =>
          String.eqb name "apogee"
          && (zero <? vertical_velocity p)
          && (vertical_velocity s <=? zero)
          && (burn_out d <=? time s)
      | TriggerAltitude h =>
          (h <? altitude p) && (altitude s <=? h)
          && (vertical_velocity s <? zero)
      end
  end.

(** Modelled from the spec: one sample tick (section 4.5).  A device that
    has triggered is not evaluated again. *)
Definition tick (d : Device) (s : Sample) : Device :=
  match triggered_at d with
  | Some _ => d
  | None =>
      if evaluate d s
      then mkDevice (chute d) (burn_out d) (previous d) (Some (time s))
      else mkDevice (chute d) (burn_out d) (Some s) None
  end.

(** Modelled from the spec: the integrator feeds the samples in time order,
    one tick each. *)
Definition run (d : Device) (samples : list Sample) : Device :=
  fold_left tick samples d.

(** Modelled from the spec: the status of a device at time [now]
    (section 4.5).  "Once Triggered, a device enters Deployed only after
    lag seconds have elapsed." *)
Definition status (d : Device) (now : F) : Status :=
  match triggered_at d with
  | None => Armed
  | Some t0 => if t0 + lag (chute d) <=? now then Deployed else Triggered
  end.

End Evaluator.

Arguments Sample F : clear implicits.
Arguments Device F : clear implicits.

End RecoveryTrigger.

(** ** Tolerances *)

(** [x] is within relative tolerance [tol] of the reference value [ref]. *)
Definition within_rel_Q (tol ref x : Q) : Prop :=
  (Qabs (x - ref) <= tol * Qabs ref)%Q.

Definition within_rel_R (tol ref x : R) : Prop :=
  (Rabs (x - ref) <= tol * Rabs ref)%R.

Module Approx.

(** A double is close to [ref] when the rational number it denotes is. *)
Definition binary64_close (x : float) (ref tol : Q) : Prop :=
  exists q, Binary64.to_Q x = Some q /\ within_rel_Q tol ref q.

Definition ideal_close (x : R) (ref tol : Q) : Prop :=
  within_rel_R (Q2R tol) (Q2R ref) x.

End Approx.

(** ** What the specification asks of a thrust curve *)

Section ThrustCurve.

Context {F : Type} `{PyFloat F}.

Local Open Scope py_scope.

Fixpoint strictly_increasing (ts : list F) : Prop :=
  match ts with
  | t1 :: ((t2 :: _) as rest) => t1 < t2 /\ strictly_increasing rest
  | _ => True
  end.

(** [x == 0] *)
Definition is_zero (x : F) : Prop := x <= of_dec 0 /\ of_dec 0 <= x.

Definition final_sample (curve : list (F * F)) : option (F * F) :=
  last (map Some curve) None.

(** Section 4.3: the curve is non-empty, its times start at 0 and increase
    strictly, no thrust is negative, the final thrust is 0; section 3: the
    burn time equals or exceeds the last time sample. *)
Definition valid_thrust_curve (curve : list (F * F)) (burn : F) : Prop :=
  curve <> []
  /\ (exists t0 f0, hd_error curve = Some (t0, f0) /\ is_zero t0)
  /\ strictly_increasing (map fst curve)
  /\ Forall (fun p => of_dec 0 <= snd p) curve
  /\ (exists tn fn,
        final_sample curve = Some (tn, fn) /\ is_zero fn /\ tn <= burn).

End ThrustCurve.

(** ** What the specification asks of the rocket assembly *)

Section Assembly.

Context {F : Type} `{PyFloat F}.

Local Open Scope Q_scope.

(** Section 4.4, in its order: (1) the motor at a fixed axial position,
    (2) the nose cone, (3) the fin set with zero cant angle, (4) the
    recovery devices. *)
Definition attachments_in_order (motor : SolidMotor F)
    (reefed_cd_s main_cd_s : F) : list (Component F) :=
  [ MotorAt motor (of_dec 0.0);
    Nose (of_dec 0.4953) "ogive" (of_dec 2.5) "Fiberglass Nose";
    TrapezoidalFins 3 (of_dec 0.3334) (of_dec 0.0510) (of_dec 0.1270)
      (of_dec 0.38) (of_dec 0.0) "Aluminum Fins";
    Chute (mkParachute "reefed" reefed_cd_s (TriggerName "apogee") 105
             (of_dec 1.5) (0%Z, of_dec 8.3, of_dec 0.5));
    Chute (mkParachute "main" main_cd_s (TriggerAltitude (of_dec 305.0)) 105
             (of_dec 1.5) (0%Z, of_dec 8.3, of_dec 0.5)) ].

End Assembly.

(** ** What the specification asks of an apogee trigger *)

Section ApogeeTick.

Context {F : Type} `{PyFloat F}.

Local Open Scope py_scope.

Import RecoveryTrigger.

(** Between the ticks of [p] and [s] vertical velocity goes from positive
    to non-positive, and the tick of [s] is not before burn-out. *)
Definition apogee_crossing (burn : F) (p s : Sample F) : Prop :=
  zero < vertical_velocity p
  /\ vertical_velocity s <= zero
  /\ burn <= time s.

(** [s], the sample of tick [S i], is the first tick of [samples] with an
    apogee crossing. *)
Definition first_apogee_tick (burn : F) (samples : list (Sample F))
    (i : nat) (s : Sample F) : Prop :=
  nth_error samples (S i) = Some s
  /\ (exists p, nth_error samples i = Some p /\ apogee_crossing burn p s)
  /\ forall j pj sj,
       (j < i)%nat ->
       nth_error samples j = Some pj ->
       nth_error samples (S j) = Some sj ->
       ~ apogee_crossing burn pj sj.

End ApogeeTick.

(** ** The flight run *)

(** A call [run] makes on rocketpy's [Flight]: the constructor, which
    integrates the trajectory, and the four methods called on its result. *)
Inductive FlightCall (F : Type) : Type :=
  | NewFlight (rocket : Rocket F) (environment : Environment F)
      (rail_length inclination heading : F) (max_time : Z)
  | FlightInfo
  | FlightAllInfo
  | ExportData (file_name : string) (variables : list string)
  | Trajectory3d (filename : string).

Arguments NewFlight {F}.
Arguments FlightInfo {F}.
Arguments FlightAllInfo {F}.
Arguments ExportData {F}.
Arguments Trajectory3d {F}.

(** What a run of the script leaves behind: the world of the environment
    builder, and the calls made on [Flight], oldest first. *)
Record Session (F : Type) : Type := mkSession {
  outside : World;
  flight_calls : list (FlightCall F)
}.

Arguments mkSession {F}.
Arguments outside {F}.
Arguments flight_calls {F}.

(** A statement of [run]: a value or a raised exception, and the session it
    leaves. *)
Definition Script (F A : Type) : Type := Session F -> result A * Session F.

#[export] Instance Script_monad (F : Type) : Monad (Script F) := {
  ret := fun A a s => (Ok a, s);
  bind := fun A B m k s =>
    match m s with
    | (Ok a, s') => k a s'
    | (Raise e, s') => (Raise e, s')
    end
}.

(** A statement of the environment builder, run inside the script. *)
Definition in_world {F A} (m : IO A) : Script F A :=
  fun s =>
    let (r, w) := m (outside s) in
    (r, mkSession w (flight_calls s)).

(** A value that was computed, or whose computation raised. *)
Definition from_result {F A} (r : result A) : Script F A :=
  fun s => (r, s).

Section FlightRun.

Context {F : Type} `{PyFloat F}.

Local Open Scope Q_scope.

(** The forecast data provider, as for [build_environment]. *)
Variable provider : nat -> Reply.

(** rocketpy's [Flight]: whether a call raises, given the calls made before
    it.  Nothing else of a call is observed by the script, which discards
    every return value but the flight object. *)
Variable rocketpy : list (FlightCall F) -> FlightCall F -> option Exception.

(** One call on [Flight]: it is recorded, and raises when rocketpy does. *)
Definition call (c : FlightCall F) : Script F unit :=
  fun s =>
    let s' := mkSession (outside s) (flight_calls s ++ [c]) in
    match rocketpy (flight_calls s) c with
    | Some exc => (Raise exc, s')
    | None => (Ok tt, s')
    end.

Definition run : Script F unit :=
  env <- in_world (build_environment provider) ;;
  motor <- from_result build_motor ;;
  rocket <- from_result (build_rocket motor) ;;
  call (NewFlight rocket env (of_dec 5.1816) (of_dec 84.0) (of_dec 90.0) 600) ;;;
  call FlightInfo ;;;
  call FlightAllInfo ;;;
  call (ExportData "boys_ranch_flight.csv"
          ["z"; "mach_number"; "angle_of_attack"]%string) ;;;
  call (Trajectory3d "boys_ranch_trajectory.png").

(** The calls of [run] on [Flight], in program order, for the rocket and the
    environment it built. *)
Definition flight_plan (rocket : Rocket F) (env : Environment F)
    : list (FlightCall F) :=
  [ NewFlight rocket env (of_dec 5.1816) (of_dec 84.0) (of_dec 90.0) 600;
    FlightInfo;
    FlightAllInfo;
    ExportData "boys_ranch_flight.csv"
      ["z"; "mach_number"; "angle_of_attack"]%string;
    Trajectory3d "boys_ranch_trajectory.png" ].

(** The calls [cs] made one after the other, stopping at the first that
    raises. *)
Fixpoint attempt (cs : list (FlightCall F)) : Script F unit :=
  match cs with
  | [] => ret tt
  | c :: cs' => call c ;;; attempt cs'
  end.

End FlightRun.

(** Unfolds the decimal literals of the real instance to quotients. *)
Ltac literals :=
  cbn [of_dec of_int pi ideal] in *; unfold Q2R in *; cbn [Qnum Qden] in *.

(** ** Properties of the two arithmetics *)

Local Open Scope R_scope.

Lemma real_truediv_nonzero (x y : R) :
  y <> 0 -> Ideal.real_truediv x y = Ok (x / y).
Proof.
  intro Hy. unfold Ideal.real_truediv.
  destruct (Req_dec_T y 0) as [E | _]; [contradiction | reflexivity].
Qed.

Lemma real_truediv_zero (x y : R) :
  y = 0 -> Ideal.real_truediv x y = Raise ZeroDivisionError.
Proof.
  intro Hy. unfold Ideal.real_truediv.
  destruct (Req_dec_T y 0) as [_ | N]; [reflexivity | contradiction].
Qed.

Lemma real_ltb_iff (x y : R) : Ideal.real_ltb x y = true <-> x < y.
Proof.
  unfold Ideal.real_ltb. destruct (Rlt_dec x y); split; intro; auto; discriminate.
Qed.

Lemma real_leb_iff (x y : R) : Ideal.real_leb x y = true <-> x <= y.
Proof.
  unfold Ideal.real_leb. destruct (Rle_dec x y); split; intro; auto; discriminate.
Qed.

(** From the first terms of the Machin-like series
    [PI / 4 = 2 * atan (/3) + atan (/7)]. *)
Lemma PI_bounds : 3.14159 < PI < 3.1416.
Proof.
  pose proof (PI_2_3_7_ineq 2) as Hb.
  unfold sum_f_R0, tg_alt, PI_2_3_7_tg, Ratan_seq in Hb.
  simpl in Hb.
  lra.
Qed.

(** The literals of the script read by [binary64] are the doubles Rocq's own
    parser reads. *)
Example literals_binary64 :
  @PROP_MASS float _ = 3.019%float /\
  @GRAIN_OUTER_RADIUS float _ = 0.04%float /\
  @GRAIN_INNER_RADIUS float _ = 0.01%float /\
  @GRAIN_LENGTH float _ = 0.12%float /\
  @MAIN_DIAMETER float _ = 2.7432%float /\
  @LAUNCH_LONGITUDE float _ = (-102.3)%float.
Proof. repeat split; vm_compute; reflexivity. Qed.

(** ** Grain density *)

(** In real arithmetic the derivation is one guarded division. *)
Lemma ideal_grain_density (m : R) (n : Z) (Ro Ri L : R) :
  derive_grain_density m n Ro Ri L
  = Ideal.real_truediv m (IZR n * PI * (Ro ^ 2 - Ri ^ 2) * L).
Proof. reflexivity. Qed.

Lemma grain_volume_zero (n : Z) (Ro Ri L : R) :
  IZR n * PI * (Ro ^ 2 - Ri ^ 2) * L = 0
  <-> n = 0%Z \/ Ro ^ 2 = Ri ^ 2 \/ L = 0.
Proof.
  pose proof PI_RGT_0 as Hpi.
  split.
  - intro Hz.
    apply Rmult_integral in Hz. destruct Hz as [Hz | Hz]; [| auto].
    apply Rmult_integral in Hz. destruct Hz as [Hz | Hz]; [| right; left; lra].
    apply Rmult_integral in Hz. destruct Hz as [Hz | Hz]; [| lra].
    left. now apply eq_IZR_R0.
  - intros [Hn | [Hr | HL]].
    + subst n. ring.
    + rewrite Hr. ring.
    + subst L. ring.
Qed.

Lemma grain_volume_pos (n : Z) (Ro Ri L : R) :
  (0 < n)%Z -> 0 <= Ri < Ro -> 0 < L ->
  0 < IZR n * PI * (Ro ^ 2 - Ri ^ 2) * L.
Proof.
  intros Hn [Hi Ho] HL.
  pose proof PI_RGT_0 as Hpi.
  apply IZR_lt in Hn.
  assert (Hr : 0 < Ro ^ 2 - Ri ^ 2) by nra.
  apply Rmult_lt_0_compat; [| exact HL].
  apply Rmult_lt_0_compat; [| exact Hr].
  apply Rmult_lt_0_compat; [exact Hn | exact Hpi].
Qed.

Lemma div_between (m D a b : R) :
  0 < D -> a * D <= m <= b * D -> a <= m / D <= b.
Proof.
  intros HD [Ha Hb].
  assert (E : m / D * D = m) by (field; lra).
  split; apply Rmult_le_reg_r with D; lra.
Qed.

Lemma ideal_close_intro (x : R) (ref tol : Q) :
  0 <= Q2R ref ->
  Q2R ref * (1 - Q2R tol) <= x <= Q2R ref * (1 + Q2R tol) ->
  Approx.ideal_close x ref tol.
Proof.
  intros Hr [Hlo Hhi]. unfold Approx.ideal_close, within_rel_R.
  rewrite (Rabs_pos_eq (Q2R ref)) by exact Hr.
  apply Rabs_le. lra.
Qed.

Lemma ideal_close_elim (x : R) (ref tol : Q) :
  0 <= Q2R ref ->
  Approx.ideal_close x ref tol ->
  Q2R ref * (1 - Q2R tol) <= x <= Q2R ref * (1 + Q2R tol).
Proof.
  unfold Approx.ideal_close, within_rel_R. intros Hr Hc.
  rewrite (Rabs_pos_eq (Q2R ref)) in Hc by exact Hr.
  pose proof (Rle_abs (x - Q2R ref)) as Hp.
  pose proof (Rle_abs (- (x - Q2R ref))) as Hn. rewrite Rabs_Ropp in Hn.
  lra.
Qed.

(** The value of [GRAIN_DENSITY] in real arithmetic lies between 1779 and
    1780. *)
Lemma ideal_GRAIN_DENSITY_bounds :
  exists d : R, GRAIN_DENSITY = Ok d /\ 1779 <= d <= 1780.
Proof.
  pose proof PI_bounds as [Hlo Hhi].
  unfold GRAIN_DENSITY. rewrite ideal_grain_density.
  unfold PROP_MASS, GRAIN_COUNT, GRAIN_OUTER_RADIUS, GRAIN_INNER_RADIUS,
    GRAIN_LENGTH.
  literals.
  eexists. split.
  - apply real_truediv_nonzero. lra.
  - apply div_between; lra.
Qed.

(** C3 (as the specification states it): the density derived from the
    script's constants is within 1% of 1667.7 kg/m^3.  This fails: the
    constants give about 1779.59, in double precision and in real
    arithmetic alike. *)
Lemma GRAIN_DENSITY_not_1667_7 :
  ~ (exists d : float,
       GRAIN_DENSITY = Ok d /\ Approx.binary64_close d 1667.7 0.01)
  /\ ~ (exists d : R,
          GRAIN_DENSITY = Ok d /\ Approx.ideal_close d 1667.7 0.01).
Proof.
  split.
  - intros [d [Hd [q [Hq Hle]]]].
    vm_compute in Hd. injection Hd as <-.
    vm_compute in Hq. injection Hq as <-.
    apply Hle. reflexivity.
  - intros [d [Hd Hc]].
    destruct ideal_GRAIN_DENSITY_bounds as [d' [Hd' Hb]].
    rewrite Hd in Hd'. injection Hd' as <-.
    apply ideal_close_elim in Hc; literals; lra.
Qed.

(** C3 (amended): for propellant mass 3.019 kg, 3 grains, outer radius
    0.04 m, inner radius 0.01 m and grain length 0.12 m, [GRAIN_DENSITY]
    evaluates without error to a value within 1% of 1779.6 kg/m^3, in double
    precision and in real arithmetic. *)
Theorem GRAIN_DENSITY_value :
  (exists d : float,
     derive_grain_density (of_dec 3.019) 3 (of_dec 0.04) (of_dec 0.01)
       (of_dec 0.12) = Ok d
     /\ GRAIN_DENSITY = Ok d
     /\ Approx.binary64_close d 1779.6 0.01)
  /\ (exists d : R,
        derive_grain_density (of_dec 3.019) 3 (of_dec 0.04) (of_dec 0.01)
          (of_dec 0.12) = Ok d
        /\ GRAIN_DENSITY = Ok d
        /\ Approx.ideal_close d 1779.6 0.01).
Proof.
  split.
  - eexists. split; [vm_compute; reflexivity |].
    split; [vm_compute; reflexivity |].
    eexists. split; [vm_compute; reflexivity |].
    vm_compute. discriminate.
  - destruct ideal_GRAIN_DENSITY_bounds as [d [Hd Hb]].
    exists d. split; [exact Hd |]. split; [exact Hd |].
    apply ideal_close_intro; literals; lra.
Qed.


(** Over the reals the round trip needs the inner radius non-negative: an
    inner radius that is the negative of the outer one has annulus area zero,
    and the division raises. *)
Remark grain_density_round_trip_needs_nonnegative_radius :
  (let outer := of_dec 1 : float in
   let inner := of_dec (-1) : float in
   fltb inner outer = true
   /\ derive_grain_density (of_dec 3.019) 3 outer inner (of_dec 0.12)
      = Raise ZeroDivisionError)
  /\ ~ (forall (m : R) (n : Z) (Ro Ri L : R),
          Ri < Ro -> 0 < L -> (0 < n)%Z -> 0 < m ->
          exists d,
            derive_grain_density m n Ro Ri L = Ok d
            /\ d * IZR n * PI * (Ro ^ 2 - Ri ^ 2) * L = m).
Proof.
  split.
  - split; vm_compute; reflexivity.
  - intro Hall.
    destruct (Hall 1 1%Z 1 (-1) 1) as [d [Hd _]]; try lra; try lia.
    rewrite ideal_grain_density in Hd.
    rewrite real_truediv_zero in Hd by ring.
    discriminate.
Qed.

(** In double precision, at the script's constants, the product comes back
    within one part in 10^15 of [PROP_MASS]. *)
Example GRAIN_DENSITY_round_trip_binary64 :
  exists d : float,
    GRAIN_DENSITY = Ok d
    /\ Approx.binary64_close
         (d * Binary64.of_Z 3 * pi
          * (GRAIN_OUTER_RADIUS * GRAIN_OUTER_RADIUS
             - GRAIN_INNER_RADIUS * GRAIN_INNER_RADIUS)
          * GRAIN_LENGTH)%py
         3.019 (1 # 1000000000000000).
Proof.
  eexists. split; [vm_compute; reflexivity |].
  eexists. split; [vm_compute; reflexivity |].
  vm_compute. discriminate.
Qed.






(** ** Drag area *)

Lemma ideal_drag_area (cd d : R) :
  derive_drag_area cd d = Ok (cd * PI * (d / 2)²).
Proof.
  unfold derive_drag_area. cbn [of_int ideal bind result_monad truediv].
  rewrite real_truediv_nonzero by lra.
  cbn [pow2 ideal ret result_monad pi fmul].
  f_equal. unfold Rsqr. ring.
Qed.

Lemma ideal_build_rocket (motor : SolidMotor R) :
  exists rocket reefed main,
    build_rocket motor = Ok rocket
    /\ find_parachute "reefed" rocket = Some reefed
    /\ find_parachute "main" rocket = Some main
    /\ cd_s reefed = REEFED_CD * PI * (REEFED_DIAMETER / 2)²
    /\ cd_s main = MAIN_CD * PI * (MAIN_DIAMETER / 2)²
    /\ trigger reefed = TriggerName "apogee"
    /\ lag reefed = 1.5.
Proof.
  unfold build_rocket, REEFED_CD_S, MAIN_CD_S.
  rewrite !ideal_drag_area.
  cbn [bind ret result_monad].
  do 3 eexists. split; [reflexivity |].
  repeat split.
Qed.

Lemma ideal_drag_area_bounds :
  exists reefed main : R,
    REEFED_CD_S = Ok reefed /\ MAIN_CD_S = Ok main
    /\ reefed = REEFED_CD * PI * (REEFED_DIAMETER / 2)²
    /\ main = MAIN_CD * PI * (MAIN_DIAMETER / 2)²
    /\ 1.4009 <= reefed <= 1.4010
    /\ 8.8653 <= main <= 8.8654.
Proof.
  pose proof PI_bounds as [Hlo Hhi].
  unfold REEFED_CD_S, MAIN_CD_S. rewrite !ideal_drag_area.
  do 2 eexists. repeat (split; [reflexivity |]).
  unfold REEFED_CD, REEFED_DIAMETER, MAIN_CD, MAIN_DIAMETER, Rsqr.
  literals. lra.
Qed.




Lemma ideal_MAIN_CD_S_bounds :
  exists a : R, MAIN_CD_S = Ok a /\ 8.8653 <= a <= 8.8654.
Proof.
  pose proof PI_bounds as [Hlo Hhi].
  unfold MAIN_CD_S. rewrite ideal_drag_area.
  eexists. split; [reflexivity |].
  unfold MAIN_CD, MAIN_DIAMETER, Rsqr. literals. lra.
Qed.

(** C6 (as the specification states it): the drag area for cd = 1.5 and
    diameter = 2.7432 m is within 0.1% of 8.875 m^2.  This fails: the value
    is about 8.86535, which is 0.109% below 8.875. *)
Lemma MAIN_CD_S_not_8_875 :
  ~ (exists a : float,
       MAIN_CD_S = Ok a /\ Approx.binary64_close a 8.875 0.001)
  /\ ~ (exists a : R, MAIN_CD_S = Ok a /\ Approx.ideal_close a 8.875 0.001).
Proof.
  split.
  - intros [a [Ha [q [Hq Hle]]]].
    vm_compute in Ha. injection Ha as <-.
    vm_compute in Hq. injection Hq as <-.
    apply Hle. reflexivity.
  - intros [a [Ha Hc]].
    destruct ideal_MAIN_CD_S_bounds as [a' [Ha' Hb]].
    rewrite Ha in Ha'. injection Ha' as <-.
    apply ideal_close_elim in Hc; literals; lra.
Qed.

(** C6 (amended): for cd = 1.5 and diameter = 2.7432 m the derived drag area,
    which is [MAIN_CD_S], is within 0.1% of 8.865 m^2, in double precision
    and in real arithmetic. *)
Theorem MAIN_CD_S_value :
  (exists a : float,
     derive_drag_area (of_dec 1.5) (of_dec 2.7432) = Ok a
     /\ MAIN_CD_S = Ok a
     /\ Approx.binary64_close a 8.865 0.001)
  /\ (exists a : R,
        derive_drag_area (of_dec 1.5) (of_dec 2.7432) = Ok a
        /\ MAIN_CD_S = Ok a
        /\ Approx.ideal_close a 8.865 0.001).
Proof.
  split.
  - eexists. split; [vm_compute; reflexivity |].
    split; [vm_compute; reflexivity |].
    eexists. split; [vm_compute; reflexivity |].
    vm_compute. discriminate.
  - destruct ideal_MAIN_CD_S_bounds as [a [Ha Hb]].
    exists a. split; [exact Ha |]. split; [exact Ha |].
    apply ideal_close_intro; literals; lra.
Qed.

(** ** Thrust curve *)

(** Decides one comparison of decimal literals in real arithmetic. *)
Ltac real_compare :=
  cbn [fltb fleb of_dec ideal fst snd];
  first [apply real_ltb_iff | apply real_leb_iff];
  unfold Q2R; cbn [Qnum Qden]; lra.

Lemma ideal_build_motor :
  exists m : SolidMotor R,
    build_motor = Ok m
    /\ thrust_source m = THRUST_CURVE
    /\ burn_time m = BURN_TIME.
Proof.
  destruct ideal_GRAIN_DENSITY_bounds as [d [Hd _]].
  unfold build_motor. rewrite Hd. cbn [bind ret result_monad].
  eexists. repeat split.
Qed.

(** C8: [build_motor] succeeds and passes on [THRUST_CURVE] and [BURN_TIME];
    the curve is non-empty, its times start at 0 and increase strictly, no
    thrust is negative, the final thrust is 0, and the burn time is not
    below the last time sample.  This holds for the doubles the script holds
    and for the decimal numbers its text denotes. *)
Theorem thrust_curve_is_valid :
  (exists m : SolidMotor float,
     build_motor = Ok m
     /\ thrust_source m = THRUST_CURVE
     /\ burn_time m = BURN_TIME
     /\ valid_thrust_curve (thrust_source m) (burn_time m))
  /\ (exists m : SolidMotor R,
        build_motor = Ok m
        /\ thrust_source m = THRUST_CURVE
        /\ burn_time m = BURN_TIME
        /\ valid_thrust_curve (thrust_source m) (burn_time m)).
Proof.
  split.
  - eexists. split; [vm_compute; reflexivity |].
    split; [vm_compute; reflexivity |].
    split; [vm_compute; reflexivity |].
    unfold valid_thrust_curve. split; [| split; [| split; [| split]]].
    + vm_compute. discriminate.
    + do 2 eexists. split; [vm_compute; reflexivity |].
      split; vm_compute; reflexivity.
    + vm_compute. repeat split.
    + repeat constructor.
    + do 2 eexists. split; [vm_compute; reflexivity |].
      repeat split; vm_compute; reflexivity.
  - destruct ideal_build_motor as (m & Hm & Hc & Hb).
    exists m. split; [exact Hm |]. split; [exact Hc |]. split; [exact Hb |].
    rewrite Hc, Hb. unfold valid_thrust_curve, THRUST_CURVE, BURN_TIME.
    split; [| split; [| split; [| split]]].
    + discriminate.
    + do 2 eexists. split; [reflexivity |]. split; real_compare.
    + cbn [map strictly_increasing]. repeat split; real_compare.
    + cbn [map]. repeat (constructor; [real_compare |]). constructor.
    + do 2 eexists. split; [reflexivity |]. repeat split; real_compare.
Qed.

(** ** Rocket assembly *)

Lemma build_rocket_components {F : Type} `{PyFloat F}
    (motor : SolidMotor F) (reefed_cd_s main_cd_s : F) :
  REEFED_CD_S = Ok reefed_cd_s ->
  MAIN_CD_S = Ok main_cd_s ->
  exists rocket,
    build_rocket motor = Ok rocket
    /\ components rocket = attachments_in_order motor reefed_cd_s main_cd_s.
Proof.
  intros Hr Hm. unfold build_rocket. rewrite Hr, Hm.
  eexists. split; reflexivity.
Qed.

(** C9: [build_rocket] attaches to the base airframe, which has no component
    yet, first the motor at position 0, then the nose cone, then the fin set
    with cant angle 0, then the reefed and the main parachute: the component
    list of the rocket it returns is exactly these five, in this order.
    Every attachment method appends its component to the list it finds,
    keeping the earlier entries and their order. *)
Theorem build_rocket_attachment_order :
  (forall motor : SolidMotor float,
     exists rocket reefed_cd_s main_cd_s,
       REEFED_CD_S = Ok reefed_cd_s
       /\ MAIN_CD_S = Ok main_cd_s
       /\ build_rocket motor = Ok rocket
       /\ components rocket
          = attachments_in_order motor reefed_cd_s main_cd_s)
  /\ (forall motor : SolidMotor R,
        exists rocket reefed_cd_s main_cd_s,
          REEFED_CD_S = Ok reefed_cd_s
          /\ MAIN_CD_S = Ok main_cd_s
          /\ build_rocket motor = Ok rocket
          /\ components rocket
             = attachments_in_order motor reefed_cd_s main_cd_s)
  /\ (forall (F : Type) (I : PyFloat F), components (@base_rocket F I) = [])
  /\ (forall (F : Type) (rocket : Rocket F),
        (forall motor position,
           components (add_motor rocket motor position)
           = components rocket ++ [MotorAt motor position])
        /\ (forall length kind position name,
              components (add_nose rocket length kind position name)
              = components rocket ++ [Nose length kind position name])
        /\ (forall n root tip span position cant name,
              components
                (add_trapezoidal_fins rocket n root tip span position cant name)
              = components rocket
                ++ [TrapezoidalFins n root tip span position cant name])
        /\ (forall name area trig rate delay noise,
              components
                (add_parachute rocket name area trig rate delay noise)
              = components rocket
                ++ [Chute (mkParachute name area trig rate delay noise)])).
Proof.
  split; [| split; [| split]].
  - intro motor.
    assert (Hr : exists a : float, REEFED_CD_S = Ok a)
      by (eexists; vm_compute; reflexivity).
    assert (Hm : exists a : float, MAIN_CD_S = Ok a)
      by (eexists; vm_compute; reflexivity).
    destruct Hr as [r Hr], Hm as [m Hm].
    destruct (build_rocket_components motor r m Hr Hm) as [rocket [Hb Hc]].
    exists rocket, r, m. auto.
  - intro motor.
    assert (Hr : exists a : R, REEFED_CD_S = Ok a)
      by (unfold REEFED_CD_S; rewrite ideal_drag_area; eauto).
    assert (Hm : exists a : R, MAIN_CD_S = Ok a)
      by (unfold MAIN_CD_S; rewrite ideal_drag_area; eauto).
    destruct Hr as [r Hr], Hm as [m Hm].
    destruct (build_rocket_components motor r m Hr Hm) as [rocket [Hb Hc]].
    exists rocket, r, m. auto.
  - reflexivity.
  - intros F rocket. repeat split.
Qed.

(** ** Environment builder *)

Section EnvironmentProperties.

Context {F : Type} `{PyFloat F}.

Variable provider : nat -> Reply.

Lemma build_environment_served (w : World) :
  provider (forecast_requests w) = Served ->
  build_environment provider w
  = (Ok (with_model launch_site (Forecast (Some "GFS"%string))),
     mkWorld (stdout w) (S (forecast_requests w))).
Proof.
  intro Hp. unfold build_environment, try_except, set_date.
  cbn [set_atmospheric_model String.eqb Ascii.eqb Bool.eqb].
  cbn. rewrite Hp. reflexivity.
Qed.

Lemma build_environment_failed (w : World) (exc : Exception) :
  provider (forecast_requests w) = Failed exc ->
  build_environment provider w
  = (Ok (with_model launch_site StandardAtmosphere),
     mkWorld
       (stdout w
        ++ [("Warning: could not download forecast data (" ++ exc_str exc
             ++ "). Using ISA instead.")%string])
       (S (forecast_requests w))).
Proof.
  intro Hp. unfold build_environment, try_except, set_date.
  cbn. rewrite Hp. reflexivity.
Qed.

End EnvironmentProperties.

(** C2: whenever the forecast attempt fails with an exception, whatever the
    exception and whatever the provider would answer to later requests,
    [build_environment] returns an environment without raising; the
    environment is in standard-atmosphere mode, one diagnostic line was
    printed, and the forecast was requested once, with no retry.  In every
    run, failed or not, the forecast is requested exactly once. *)
Theorem build_environment_falls_back {F : Type} `{PyFloat F}
    (provider : nat -> Reply) (w : World) (exc : Exception) :
  provider (forecast_requests w) = Failed exc ->
  (exists env w',
     build_environment provider w = (Ok env, w')
     /\ atmospheric_model env = Some StandardAtmosphere
     /\ stdout w'
        = stdout w
          ++ [("Warning: could not download forecast data (" ++ exc_str exc
               ++ "). Using ISA instead.")%string]
     /\ forecast_requests w' = S (forecast_requests w))
  /\ (forall (other : nat -> Reply) (w0 : World),
        forecast_requests (snd (build_environment other w0))
        = S (forecast_requests w0)).
Proof.
  intro Hp. split.
  - do 2 eexists. split; [apply (build_environment_failed provider w exc Hp) |].
    repeat split.
  - intros other w0.
    destruct (other (forecast_requests w0)) as [| e] eqn:Hr.
    + rewrite (build_environment_served other w0 Hr). reflexivity.
    + rewrite (build_environment_failed other w0 e Hr). reflexivity.
Qed.

Lemma build_environment_falls_back_witness :
  let unreachable := mkException "ConnectionError" "network is unreachable" in
  (exists (env : Environment float) w',
     build_environment (fun _ => Failed unreachable) initial_world = (Ok env, w')
     /\ atmospheric_model env = Some StandardAtmosphere
     /\ stdout w'
        = [] ++ [("Warning: could not download forecast data ("
                  ++ "network is unreachable" ++ "). Using ISA instead.")%string]
     /\ forecast_requests w' = 1%nat)
  /\ (forall (other : nat -> Reply) (w0 : World),
        forecast_requests (snd (@build_environment float _ other w0))
        = S (forecast_requests w0)).
Proof.
  exact (build_environment_falls_back
           (fun _ => Failed (mkException "ConnectionError" "network is unreachable"))
           initial_world
           (mkException "ConnectionError" "network is unreachable")
           eq_refl).
Defined.

(** C10: whether the forecast is served or fails, the environment
    [build_environment] returns is the launch site (latitude 35.5, longitude
    -102.3, elevation 971.1 m) at the launch date (2025-10-12, 18 h UTC) with
    an atmospheric mode set on it: the forecast mode when served, the
    standard atmosphere when failed.  The two outcomes differ in nothing
    else. *)
Theorem build_environment_site {F : Type} `{PyFloat F}
    (provider : nat -> Reply) (w : World) :
  (exists env w',
     build_environment provider w = (Ok env, w')
     /\ latitude env = LAUNCH_LATITUDE
     /\ longitude env = LAUNCH_LONGITUDE
     /\ elevation env = LAUNCH_ELEVATION_M
     /\ date env = Some (2025, 10, 12, 18)%Z
     /\ atmospheric_model env
        = Some match provider (forecast_requests w) with
               | Served => Forecast (Some "GFS"%string)
               | Failed _ => StandardAtmosphere
               end
     /\ env = with_model
                (mkEnvironment LAUNCH_LATITUDE LAUNCH_LONGITUDE
                   LAUNCH_ELEVATION_M (Some (2025, 10, 12, 18)%Z) None)
                match provider (forecast_requests w) with
                | Served => Forecast (Some "GFS"%string)
                | Failed _ => StandardAtmosphere
                end)
  /\ (@LAUNCH_LATITUDE float _ = 35.5%float
      /\ @LAUNCH_LONGITUDE float _ = (-102.3)%float
      /\ @LAUNCH_ELEVATION_M float _ = 971.1%float)
  /\ (@LAUNCH_LATITUDE R _ = 35.5
      /\ @LAUNCH_LONGITUDE R _ = -102.3
      /\ @LAUNCH_ELEVATION_M R _ = 971.1).
Proof.
  split; [| split].
  - destruct (provider (forecast_requests w)) as [| e] eqn:Hr.
    + do 2 eexists.
      split; [apply (build_environment_served provider w Hr) |].
      repeat split.
    + do 2 eexists.
      split; [apply (build_environment_failed provider w e Hr) |].
      repeat split.
  - repeat split; vm_compute; reflexivity.
  - unfold LAUNCH_LATITUDE, LAUNCH_LONGITUDE, LAUNCH_ELEVATION_M.
    literals. repeat split; lra.
Qed.

(** ** Recovery trigger *)

Section TriggerProperties.

Import RecoveryTrigger.

Context {F : Type} `{PyFloat F}.

Local Open Scope py_scope.

Lemma tick_triggered (d : Device F) (s : Sample F) (t : F) :
  triggered_at d = Some t -> tick d s = d.
Proof. intro Ht. unfold tick. now rewrite Ht. Qed.

(** A device that has triggered is left as it is by any further samples. *)
Lemma run_triggered (samples : list (Sample F)) (d : Device F) (t : F) :
  triggered_at d = Some t -> run d samples = d.
Proof.
  induction samples as [| s l IH]; intro Ht; [reflexivity |].
  unfold run in *. cbn [fold_left]. rewrite (tick_triggered d s t Ht).
  now apply IH.
Qed.

Lemma run_app (d : Device F) (l1 l2 : list (Sample F)) :
  run d (l1 ++ l2) = run (run d l1) l2.
Proof. unfold run. apply fold_left_app. Qed.

Lemma evaluate_apogee (d : Device F) (p s : Sample F) :
  trigger (chute d) = TriggerName "apogee" ->
  previous d = Some p ->
  evaluate d s = true <-> apogee_crossing (burn_out d) p s.
Proof.
  intros Hk Hp. unfold evaluate, apogee_crossing. rewrite Hp, Hk.
  cbn [String.eqb Ascii.eqb Bool.eqb andb].
  rewrite !andb_true_iff. tauto.
Qed.

(** While armed with [p] as its last sample, an apogee device triggers at
    the first crossing of [p :: samples]. *)
Lemma run_armed (samples : list (Sample F)) :
  forall (d : Device F) (p : Sample F) (t : F),
    trigger (chute d) = TriggerName "apogee" ->
    triggered_at d = None ->
    previous d = Some p ->
    triggered_at (run d samples) = Some t
    <-> exists i s,
          first_apogee_tick (burn_out d) (p :: samples) i s /\ time s = t.
Proof.
  induction samples as [| s0 l IH]; intros d p t Hk Hn Hp.
  - cbn [run fold_left]. rewrite Hn. split; [discriminate |].
    intros (i & s & (Hs & _) & _). destruct i; discriminate.
  - unfold run. cbn [fold_left]. fold (run (tick d s0) l).
    unfold tick. rewrite Hn.
    pose proof (evaluate_apogee d p s0 Hk Hp) as Hev.
    destruct (evaluate d s0) eqn:He.
    + rewrite (run_triggered l _ (time s0)) by reflexivity.
      cbn [triggered_at]. split.
      * intro E. injection E as <-. exists 0%nat, s0. split; [| reflexivity].
        split; [reflexivity |]. split.
        -- exists p. split; [reflexivity | now apply Hev].
        -- intros j pj sj Hj. inversion Hj.
      * intros (i & s & (Hs & _ & Hmin) & Ht).
        destruct i as [| i].
        -- cbn in Hs. injection Hs as <-. now rewrite Ht.
        -- exfalso. apply (Hmin 0%nat p s0); [apply Nat.lt_0_succ | | |];
             try reflexivity. now apply Hev.
    + assert (Hno : ~ apogee_crossing (burn_out d) p s0)
        by (intro Hc; apply Hev in Hc; discriminate).
      rewrite (IH _ s0 t); [| exact Hk | reflexivity | reflexivity].
      cbn [burn_out]. split.
      * intros (i & s & (Hs & (q & Hq & Hc) & Hmin) & Ht).
        exists (S i), s. split; [| exact Ht].
        split; [exact Hs |]. split; [exists q; now split |].
        intros j pj sj Hj Hpj Hsj.
        destruct j as [| j].
        -- cbn in Hpj, Hsj. injection Hpj as <-. injection Hsj as <-.
           exact Hno.
        -- apply (Hmin j pj sj); [now apply Nat.succ_lt_mono | exact Hpj | exact Hsj].
      * intros (i & s & (Hs & (q & Hq & Hc) & Hmin) & Ht).
        destruct i as [| i].
        -- cbn in Hq, Hs. injection Hq as <-. injection Hs as <-.
           contradiction.
        -- exists i, s. split; [| exact Ht].
           split; [exact Hs |]. split; [exists q; now split |].
           intros j pj sj Hj Hpj Hsj.
           apply (Hmin (S j) pj sj);
             [now apply -> Nat.succ_lt_mono | exact Hpj | exact Hsj].
Qed.

(** A freshly armed apogee device triggers at the first crossing of the
    samples it is fed, at the time of that tick, or never. *)
Lemma run_from_armed (p : Parachute F) (motor : SolidMotor F)
    (samples : list (Sample F)) (t : F) :
  trigger p = TriggerName "apogee" ->
  triggered_at (run (arm p motor) samples) = Some t
  <-> exists i s,
        first_apogee_tick (burn_time motor) samples i s /\ time s = t.
Proof.
  intro Hk. destruct samples as [| s0 l].
  - cbn. split; [discriminate |].
    intros (i & s & (Hs & _) & _). destruct i; discriminate.
  - unfold run. cbn [fold_left]. fold (run (tick (arm p motor) s0) l).
    change (tick (arm p motor) s0)
      with (mkDevice p (burn_time motor) (Some s0) None).
    now apply (run_armed l (mkDevice p (burn_time motor) (Some s0) None) s0 t).
Qed.

(** Feeding more samples to a device that has triggered changes nothing. *)
Lemma run_one_shot (d : Device F) (samples more : list (Sample F)) (t : F) :
  triggered_at (run d samples) = Some t ->
  run d (samples ++ more) = run d samples.
Proof. intro Ht. rewrite run_app. now apply (run_triggered more _ t). Qed.

End TriggerProperties.

Section ReefedDevice.

Import RecoveryTrigger.

(** In real arithmetic a crossing reads as the specification words it. *)
Lemma ideal_apogee_crossing (burn : R) (p s : Sample R) :
  apogee_crossing burn p s
  <-> 0 < vertical_velocity p /\ vertical_velocity s <= 0 /\ burn <= time s.
Proof.
  unfold apogee_crossing, zero. cbn [fltb fleb of_dec ideal].
  rewrite real_ltb_iff, !real_leb_iff.
  replace (Q2R 0) with 0 by (unfold Q2R; cbn; lra).
  tauto.
Qed.

Lemma ideal_status (d : Device R) (t0 now : R) :
  triggered_at d = Some t0 ->
  (status d now = Triggered <-> now < t0 + lag (chute d))
  /\ (status d now = Deployed <-> t0 + lag (chute d) <= now).
Proof.
  intro Ht. unfold status. rewrite Ht. cbn [fleb fadd ideal].
  destruct (Ideal.real_leb (t0 + lag (chute d)) now) eqn:E.
  - apply real_leb_iff in E.
    split; split; intro; try discriminate; try reflexivity; lra.
  - assert (~ t0 + lag (chute d) <= now)
      by (intro Hle; apply real_leb_iff in Hle; congruence).
    split; split; intro; try discriminate; try reflexivity; lra.
Qed.

Lemma ideal_status_armed (d : Device R) (now : R) :
  triggered_at d = None -> status d now = Armed.
Proof. intro Ht. unfold status. now rewrite Ht. Qed.

(** The status never moves backwards, as more samples arrive and time
    passes. *)
Lemma ideal_status_forward (d : Device R) (samples : list (Sample R))
    (k1 k2 : nat) (t1 t2 : R) :
  (k1 <= k2)%nat -> t1 <= t2 ->
  (rank (status (run d (firstn k1 samples)) t1)
   <= rank (status (run d (firstn k2 samples)) t2))%nat.
Proof.
  intros Hk Ht.
  assert (Hsplit : firstn k2 samples
                   = firstn k1 samples ++ skipn k1 (firstn k2 samples)).
  { rewrite <- (firstn_skipn k1 (firstn k2 samples)) at 1.
    rewrite firstn_firstn, Nat.min_l by exact Hk. reflexivity. }
  rewrite Hsplit, run_app.
  destruct (triggered_at (run d (firstn k1 samples))) as [t0 |] eqn:E.
  - rewrite (run_triggered _ _ t0 E).
    destruct (ideal_status _ t0 t1 E) as [Ht1 Hd1].
    destruct (ideal_status _ t0 t2 E) as [Ht2 Hd2].
    set (d1 := run d (firstn k1 samples)) in *.
    destruct (Rle_dec (t0 + lag (chute d1)) t1) as [A1 | A1];
      destruct (Rle_dec (t0 + lag (chute d1)) t2) as [A2 | A2].
    + rewrite (proj2 Hd1 A1), (proj2 Hd2 A2). cbn [rank]. lia.
    + exfalso. lra.
    + rewrite (proj2 Ht1 ltac:(lra)), (proj2 Hd2 A2). cbn [rank]. lia.
    + rewrite (proj2 Ht1 ltac:(lra)), (proj2 Ht2 ltac:(lra)). cbn [rank]. lia.
  - rewrite (ideal_status_armed _ t1 E). cbn [rank]. lia.
Qed.

Lemma run_chute (samples : list (Sample R)) (d : Device R) :
  chute (run d samples) = chute d.
Proof.
  revert d. induction samples as [| s l IH]; intro d; [reflexivity |].
  unfold run in *. cbn [fold_left]. rewrite IH.
  unfold tick. destruct (triggered_at d); [reflexivity |].
  destruct (evaluate d s); reflexivity.
Qed.

End ReefedDevice.

(** C1: [build_rocket] configures the parachute named "reefed" with the
    apogee trigger and a lag of 1.5 s.  For the evaluator of section 4.5 armed
    with it, under any sequence of samples: the device has triggered exactly
    when the samples contain a tick at which vertical velocity goes from
    positive to non-positive at or after motor burn-out, and then at the time
    of the first such tick, never before burn-out; it is Armed until then,
    Triggered from then until 1.5 s later and Deployed from exactly 1.5 s
    later on; its status never moves backwards as samples arrive and time
    passes; and samples fed after it has triggered leave it unchanged. *)
Theorem reefed_device_lifecycle (motor : SolidMotor R) :
  exists rocket reefed,
    build_rocket motor = Ok rocket
    /\ find_parachute "reefed" rocket = Some reefed
    /\ trigger reefed = TriggerName "apogee"
    /\ lag reefed = 1.5
    /\ forall samples : list (RecoveryTrigger.Sample R),
         let device := RecoveryTrigger.run (RecoveryTrigger.arm reefed motor) in
         (forall t,
            RecoveryTrigger.triggered_at (device samples) = Some t
            <-> exists i s,
                  first_apogee_tick (burn_time motor) samples i s
                  /\ RecoveryTrigger.time s = t)
         /\ (forall t,
               RecoveryTrigger.triggered_at (device samples) = Some t ->
               burn_time motor <= t)
         /\ (RecoveryTrigger.triggered_at (device samples) = None ->
             forall now,
               RecoveryTrigger.status (device samples) now
               = RecoveryTrigger.Armed)
         /\ (forall t0,
               RecoveryTrigger.triggered_at (device samples) = Some t0 ->
               forall now,
                 (RecoveryTrigger.status (device samples) now
                  = RecoveryTrigger.Triggered <-> now < t0 + 1.5)
                 /\ (RecoveryTrigger.status (device samples) now
                     = RecoveryTrigger.Deployed <-> t0 + 1.5 <= now))
         /\ (forall k1 k2 t1 t2,
               (k1 <= k2)%nat -> t1 <= t2 ->
               (RecoveryTrigger.rank
                  (RecoveryTrigger.status (device (firstn k1 samples)) t1)
                <= RecoveryTrigger.rank
                     (RecoveryTrigger.status (device (firstn k2 samples)) t2))%nat)
         /\ (forall t0 more,
               RecoveryTrigger.triggered_at (device samples) = Some t0 ->
               device (samples ++ more) = device samples).
Proof.
  destruct (ideal_build_rocket motor)
    as (rocket & reefed & main & Hb & Hr & _ & _ & _ & Hk & Hl).
  exists rocket, reefed. repeat (split; [assumption |]).
  intros samples device. subst device.
  split; [| split; [| split; [| split; [| split]]]].
  - intro t. now apply run_from_armed.
  - intros t Ht.
    apply (run_from_armed reefed motor samples t Hk) in Ht.
    destruct Ht as (i & s & (_ & (p & _ & Hc) & _) & <-).
    now apply ideal_apogee_crossing in Hc.
  - intros Hn now. now apply ideal_status_armed.
  - intros t0 Ht now.
    pose proof (ideal_status _ t0 now Ht) as Hs.
    rewrite run_chute in Hs. cbn [RecoveryTrigger.arm RecoveryTrigger.chute] in Hs.
    rewrite Hl in Hs. exact Hs.
  - intros k1 k2 t1 t2. apply ideal_status_forward.
  - intros t0 more. apply run_one_shot.
Qed.

(** ** Further properties of the grain-density derivation *)

(** In real arithmetic the derivation succeeds with the quotient whenever the
    grain volume is not zero. *)
Lemma ideal_grain_density_defined (m : R) (n : Z) (Ro Ri L : R) :
  IZR n * PI * (Ro ^ 2 - Ri ^ 2) * L <> 0 ->
  derive_grain_density m n Ro Ri L
  = Ok (m / (IZR n * PI * (Ro ^ 2 - Ri ^ 2) * L)).
Proof. intro Hv. rewrite ideal_grain_density. now apply real_truediv_nonzero. Qed.

Lemma ideal_grain_density_undefined (m : R) (n : Z) (Ro Ri L : R) :
  IZR n * PI * (Ro ^ 2 - Ri ^ 2) * L = 0 ->
  derive_grain_density m n Ro Ri L = Raise ZeroDivisionError.
Proof. intro Hv. rewrite ideal_grain_density. now apply real_truediv_zero. Qed.

(** X1: the radii enter the derivation through their squares only: changing
    the sign of the outer or of the inner radius changes neither whether it
    fails nor the density it yields, so a negative radius is accepted like
    its absolute value. *)
Theorem grain_density_ignores_radius_sign (m : R) (n : Z) (Ro Ri L : R) :
  derive_grain_density m n (- Ro) Ri L = derive_grain_density m n Ro Ri L
  /\ derive_grain_density m n Ro (- Ri) L = derive_grain_density m n Ro Ri L
  /\ derive_grain_density m n (Rabs Ro) (Rabs Ri) L
     = derive_grain_density m n Ro Ri L.
Proof.
  assert (Habs : forall x : R, Rabs x ^ 2 = x ^ 2).
  { intro x. rewrite RPow_abs. apply Rabs_pos_eq, pow2_ge_0. }
  rewrite !ideal_grain_density, !Habs.
  repeat split; f_equal; ring.
Qed.

(** X2: exchanging the outer and the inner radius fails in the same cases
    and otherwise yields the density with the opposite sign. *)
Theorem grain_density_exchange_radii (m : R) (n : Z) (Ro Ri L : R) :
  derive_grain_density m n Ri Ro L
  = match derive_grain_density m n Ro Ri L with
    | Ok d => Ok (- d)
    | Raise e => Raise e
    end.
Proof.
  set (V := IZR n * PI * (Ro ^ 2 - Ri ^ 2) * L).
  assert (HV : IZR n * PI * (Ri ^ 2 - Ro ^ 2) * L = - V) by (unfold V; ring).
  destruct (Req_dec_T V 0) as [E | N].
  - rewrite (ideal_grain_density_undefined m n Ro Ri L E).
    apply ideal_grain_density_undefined. lra.
  - rewrite (ideal_grain_density_defined m n Ro Ri L N).
    rewrite ideal_grain_density_defined by lra.
    f_equal. rewrite HV. fold V. field. exact N.
Qed.








(** ** Further properties of the drag-area derivation *)





(** X10: in double precision the drag-area derivation never raises
    [ZeroDivisionError], whatever its arguments, its only divisor being the
    literal 2: the only exception it can raise is [OverflowError], and then
    the half diameter is finite.  A diameter of 1e200 does raise it; a zero
    diameter yields area 0.0; an infinite diameter yields an infinite area
    and no error; the negative of the main diameter yields the main drag
    area. *)
Theorem drag_area_binary64_range :
  (forall cd d : float,
     derive_drag_area cd d <> Raise ZeroDivisionError
     /\ (forall e,
           derive_drag_area cd d = Raise e ->
           e = OverflowError /\ is_finite (d / 2) = true))
  /\ derive_drag_area 1.5%float 1e200%float = Raise OverflowError
  /\ derive_drag_area 1.5%float 0%float = Ok 0%float
  /\ derive_drag_area 1.5%float infinity = Ok infinity
  /\ derive_drag_area MAIN_CD (- MAIN_DIAMETER)%float = MAIN_CD_S.
Proof.
  split; [| repeat split; vm_compute; reflexivity].
  intros cd d.
  assert (E : derive_drag_area cd d
              = bind (Binary64.float_pow2 (d / 2)%float)
                  (fun sq => Ok (cd * pi * sq)%float))
    by reflexivity.
  rewrite E. unfold Binary64.float_pow2.
  destruct (is_finite (d / 2)) eqn:Bf;
    destruct (is_infinity (d / 2 * (d / 2))) eqn:Bi;
    cbn [andb bind result_monad];
    (split; [discriminate |]); intros e He;
    try discriminate He.
  injection He as <-. split; reflexivity.
Qed.

(** ** The motor is consistent with the propellant mass *)

(** X11: the motor [build_motor] returns is consistent with the propellant
    mass it was derived from: the grain density it carries, times its own
    grain count, times the volume of one grain computed from its own radii
    and height, is [PROP_MASS], 3.019 kg; exactly so in real arithmetic, and
    within one part in 10^15 in double precision. *)
Theorem build_motor_carries_propellant_mass :
  (exists m : SolidMotor R,
     build_motor = Ok m
     /\ grain_density m * IZR (grain_number m) * PI
        * (grain_outer_radius m ^ 2 - grain_initial_inner_radius m ^ 2)
        * grain_initial_height m
        = PROP_MASS
     /\ PROP_MASS = 3.019)
  /\ (exists m : SolidMotor float,
        build_motor = Ok m
        /\ Approx.binary64_close
             (grain_density m * Binary64.of_Z (grain_number m) * pi
              * (grain_outer_radius m * grain_outer_radius m
                 - grain_initial_inner_radius m * grain_initial_inner_radius m)
              * grain_initial_height m)%float
             3.019 (1 # 1000000000000000)).
Proof.
  split.
  - pose proof PI_RGT_0 as Hpi.
    assert (Hv : IZR GRAIN_COUNT * PI
                 * (GRAIN_OUTER_RADIUS ^ 2 - GRAIN_INNER_RADIUS ^ 2)
                 * GRAIN_LENGTH <> 0).
    { unfold GRAIN_COUNT, GRAIN_OUTER_RADIUS, GRAIN_INNER_RADIUS, GRAIN_LENGTH.
      literals. nra. }
    unfold build_motor, GRAIN_DENSITY.
    rewrite (ideal_grain_density_defined _ _ _ _ _ Hv).
    cbn [bind ret result_monad].
    eexists. split; [reflexivity |].
    cbn [grain_density grain_number grain_outer_radius
         grain_initial_inner_radius grain_initial_height].
    split.
    + set (V := IZR GRAIN_COUNT * PI
                * (GRAIN_OUTER_RADIUS ^ 2 - GRAIN_INNER_RADIUS ^ 2)
                * GRAIN_LENGTH) in *.
      transitivity (PROP_MASS / V * V); [unfold V; ring | field; exact Hv].
    + unfold PROP_MASS. literals. lra.
  - eexists. split; [vm_compute; reflexivity |].
    eexists. split; [vm_compute; reflexivity |].
    vm_compute. discriminate.
Qed.

(** ** Further properties of the environment builder *)

(** X12: [build_environment] prints exactly when the forecast failed: a
    served forecast leaves the output as it was, a failed one adds one line,
    and in neither case is anything already printed changed. *)
Theorem build_environment_warns_only_on_failure {F : Type} `{PyFloat F}
    (provider : nat -> Reply) (w : World) :
  let after := snd (build_environment provider w) in
  (stdout after = stdout w <-> provider (forecast_requests w) = Served)
  /\ (List.length (stdout after) = S (List.length (stdout w))
      <-> exists exc, provider (forecast_requests w) = Failed exc)
  /\ firstn (List.length (stdout w)) (stdout after) = stdout w.
Proof.
  cbv zeta.
  destruct (provider (forecast_requests w)) as [| e] eqn:Hr.
  - rewrite (build_environment_served provider w Hr). cbn [snd stdout].
    split; [tauto |]. split.
    + split; [lia | intros [exc Hx]; discriminate].
    + apply firstn_all.
  - rewrite (build_environment_failed provider w e Hr). cbn [snd stdout].
    split; [| split].
    + split; [| discriminate].
      intro E. apply (f_equal (@List.length string)) in E.
      rewrite List.length_app in E. cbn in E. lia.
    + split; [eauto |]. intros _. rewrite List.length_app. cbn. lia.
    + rewrite firstn_app, Nat.sub_diag, firstn_all. cbn. apply app_nil_r.
Qed.

(** ** The flight run *)

Section RunProperties.

Context {F : Type} `{PyFloat F}.

Variable provider : nat -> Reply.

Variable rocketpy : list (FlightCall F) -> FlightCall F -> option Exception.

(** Calls attempted in order either all return, or stop at the first that
    raises, with its exception and with nothing attempted after it. *)
Lemma attempt_outcome (cs : list (FlightCall F)) :
  forall s : Session F,
    (attempt rocketpy cs s
     = (Ok tt, mkSession (outside s) (flight_calls s ++ cs))
     /\ forall j c,
          nth_error cs j = Some c ->
          rocketpy (flight_calls s ++ firstn j cs) c = None)
    \/ (exists j c e,
          nth_error cs j = Some c
          /\ rocketpy (flight_calls s ++ firstn j cs) c = Some e
          /\ (forall i c',
                (i < j)%nat -> nth_error cs i = Some c' ->
                rocketpy (flight_calls s ++ firstn i cs) c' = None)
          /\ attempt rocketpy cs s
             = (Raise e,
                mkSession (outside s) (flight_calls s ++ firstn (S j) cs))).
Proof.
  induction cs as [| c cs IH]; intro s.
  - left. split.
    + destruct s as [w l]. cbn. now rewrite app_nil_r.
    + intros j c Hj. destruct j; discriminate.
  - assert (Hstep : attempt rocketpy (c :: cs) s
                    = match rocketpy (flight_calls s) c with
                      | Some e =>
                          (Raise e,
                           mkSession (outside s) (flight_calls s ++ [c]))
                      | None =>
                          attempt rocketpy cs
                            (mkSession (outside s) (flight_calls s ++ [c]))
                      end).
    { cbn [attempt bind Script_monad]. unfold call.
      destruct (rocketpy (flight_calls s) c); reflexivity. }
    rewrite Hstep. clear Hstep.
    destruct (rocketpy (flight_calls s) c) as [e |] eqn:Hc.
    + right. exists 0%nat, c, e.
      split; [reflexivity |].
      split; [cbn; now rewrite app_nil_r |].
      split; [intros i c' Hi; inversion Hi | reflexivity].
    + set (s1 := mkSession (outside s) (flight_calls s ++ [c])).
      assert (Hshift : forall j,
                 flight_calls s1 ++ firstn j cs
                 = flight_calls s ++ firstn (S j) (c :: cs))
        by (intro j; cbn; now rewrite <- app_assoc).
      destruct (IH s1) as [[Hall Hnone] | (j & cj & e & Hj & Hf & Hbefore & Hrun)].
      * left. split.
        -- rewrite Hall. cbn. now rewrite <- app_assoc.
        -- intros [| j] cj Hj.
           ++ cbn in Hj. injection Hj as <-. cbn. now rewrite app_nil_r.
           ++ rewrite <- Hshift. now apply Hnone.
      * right. exists (S j), cj, e.
        split; [exact Hj |].
        split; [rewrite <- Hshift; exact Hf |].
        split.
        -- intros [| i] c' Hi Hc'.
           ++ cbn in Hc'. injection Hc' as <-. cbn. now rewrite app_nil_r.
           ++ rewrite <- Hshift. apply Hbefore; [lia | exact Hc'].
        -- rewrite Hrun. f_equal. f_equal. apply Hshift.
Qed.

(** [run] is its environment, its motor and its rocket, then its calls on
    [Flight] attempted in order. *)
Lemma run_is_attempt (s : Session F) (motor : SolidMotor F)
    (rocket : Rocket F) (env : Environment F) (w' : World) :
  build_environment provider (outside s) = (Ok env, w') ->
  build_motor = Ok motor ->
  build_rocket motor = Ok rocket ->
  run provider rocketpy s
  = attempt rocketpy (flight_plan rocket env) (mkSession w' (flight_calls s)).
Proof.
  intros He Hm Hr. unfold run, flight_plan.
  cbn [attempt bind Script_monad]. unfold in_world, from_result.
  rewrite He, Hm, Hr.
  repeat match goal with
         | |- context [call ?o ?c ?st] =>
             destruct (call o c st) as [[[] | ?] ?]; try reflexivity
         end.
Qed.

End RunProperties.

Lemma build_environment_outcome {F : Type} `{PyFloat F}
    (provider : nat -> Reply) (w : World) :
  build_environment provider w
  = (Ok (with_model launch_site
           match provider (forecast_requests w) with
           | Served => Forecast (Some "GFS"%string)
           | Failed _ => StandardAtmosphere
           end),
     snd (build_environment provider w)).
Proof.
  destruct (provider (forecast_requests w)) as [| e] eqn:Hr.
  - now rewrite (build_environment_served provider w Hr).
  - now rewrite (build_environment_failed provider w e Hr).
Qed.

(** In double precision the motor and the rocket of the script build, and the
    rocket's first component is that motor. *)
Lemma binary64_motor_and_rocket :
  exists (motor : SolidMotor float) (rocket : Rocket float),
    build_motor = Ok motor
    /\ build_rocket motor = Ok rocket
    /\ hd_error (components rocket) = Some (MotorAt motor (of_dec 0.0)).
Proof.
  assert (Hm : exists m : SolidMotor float, build_motor = Ok m)
    by (eexists; vm_compute; reflexivity).
  destruct Hm as [motor Hm].
  assert (Hr : exists a : float, REEFED_CD_S = Ok a)
    by (eexists; vm_compute; reflexivity).
  assert (Hc : exists a : float, MAIN_CD_S = Ok a)
    by (eexists; vm_compute; reflexivity).
  destruct Hr as [r Hr], Hc as [c Hc].
  destruct (build_rocket_components motor r c Hr Hc) as [rocket [Hb Hl]].
  exists motor, rocket. repeat split; [exact Hm | exact Hb |].
  rewrite Hl. reflexivity.
Qed.

(** X13: when no call on [Flight] raises, [run] returns normally whatever the
    forecast provider answers.  It requests the forecast once, builds the
    motor and the rocket that carries it, and makes exactly five calls, in
    this order: the flight of that rocket in the environment it built (rail
    5.1816 m, inclination 84, heading 90, at most 600 s), [info], [all_info],
    the export of z, mach_number and angle_of_attack to
    boys_ranch_flight.csv, and the trajectory plot.  A failed forecast
    changes only the atmospheric mode of the environment flown, to the
    standard atmosphere. *)
Theorem run_completes (provider : nat -> Reply)
    (rocketpy : list (FlightCall float) -> FlightCall float -> option Exception)
    (s : Session float) :
  (forall before c, rocketpy before c = None) ->
  exists motor rocket,
    build_motor = Ok motor
    /\ build_rocket motor = Ok rocket
    /\ hd_error (components rocket) = Some (MotorAt motor (of_dec 0.0))
    /\ run provider rocketpy s
       = (Ok tt,
          mkSession (snd (build_environment (F:=float) provider (outside s)))
            (flight_calls s
             ++ [ NewFlight rocket
                    (with_model launch_site
                       match provider (forecast_requests (outside s)) with
                       | Served => Forecast (Some "GFS"%string)
                       | Failed _ => StandardAtmosphere
                       end)
                    5.1816%float 84%float 90%float 600;
                  FlightInfo;
                  FlightAllInfo;
                  ExportData "boys_ranch_flight.csv"
                    ["z"; "mach_number"; "angle_of_attack"]%string;
                  Trajectory3d "boys_ranch_trajectory.png" ]))
    /\ forecast_requests (snd (build_environment (F:=float) provider (outside s)))
       = S (forecast_requests (outside s)).
Proof.
  intro Hquiet.
  destruct binary64_motor_and_rocket as (motor & rocket & Hm & Hr & Hh).
  exists motor, rocket. repeat (split; [assumption |]).
  split.
  - pose proof (build_environment_outcome (F:=float) provider (outside s)) as He.
    rewrite (run_is_attempt provider rocketpy s motor rocket _ _ He Hm Hr).
    match goal with
    | |- attempt _ ?plan ?st = _ =>
        destruct (attempt_outcome rocketpy plan st)
          as [[Hall _] | (j & c & e & _ & Hf & _)]
    end.
    + rewrite Hall. reflexivity.
    + rewrite Hquiet in Hf. discriminate.
  - destruct (provider (forecast_requests (outside s))) as [| e] eqn:Hp.
    + now rewrite (build_environment_served (F:=float) provider _ Hp).
    + now rewrite (build_environment_failed (F:=float) provider _ e Hp).
Qed.

Lemma run_completes_witness :
  let offline := mkException "ConnectionError" "network is unreachable" in
  exists (motor : SolidMotor float) (rocket : Rocket float),
    build_motor = Ok motor
    /\ build_rocket motor = Ok rocket
    /\ hd_error (components rocket) = Some (MotorAt motor (of_dec 0.0))
    /\ run (fun _ => Failed offline) (fun _ _ => None) (mkSession initial_world [])
       = (Ok tt,
          mkSession
            (snd (@build_environment float _ (fun _ => Failed offline)
                    initial_world))
            ([] ++ [ NewFlight rocket (with_model launch_site StandardAtmosphere)
                       5.1816%float 84%float 90%float 600;
                     FlightInfo;
                     FlightAllInfo;
                     ExportData "boys_ranch_flight.csv"
                       ["z"; "mach_number"; "angle_of_attack"]%string;
                     Trajectory3d "boys_ranch_trajectory.png" ]))
    /\ forecast_requests
         (snd (@build_environment float _ (fun _ => Failed offline)
                 initial_world))
       = 1%nat.
Proof.
  exact (run_completes
           (fun _ => Failed (mkException "ConnectionError" "network is unreachable"))
           (fun _ _ => None) (mkSession initial_world [])
           (fun _ _ => eq_refl)).
Defined.

(** X14: [run] handles no error of [Flight].  Whatever rocketpy does, [run]
    requests the forecast once and then makes its five calls in order up to
    the first that raises: either all five return and [run] returns, or [run]
    raises the exception of the first failing call, unchanged, having made
    that call last and none after it, so that nothing is exported once the
    flight, [info] or [all_info] has failed. *)
Theorem run_stops_at_first_failure (provider : nat -> Reply)
    (rocketpy : list (FlightCall float) -> FlightCall float -> option Exception)
    (s : Session float) :
  exists motor rocket env after,
    build_motor = Ok motor
    /\ build_rocket motor = Ok rocket
    /\ build_environment (F:=float) provider (outside s) = (Ok env, after)
    /\ forecast_requests after = S (forecast_requests (outside s))
    /\ let plan := flight_plan rocket env in
       (run provider rocketpy s
        = (Ok tt, mkSession after (flight_calls s ++ plan))
        /\ forall j c,
             nth_error plan j = Some c ->
             rocketpy (flight_calls s ++ firstn j plan) c = None)
       \/ (exists j c e,
             nth_error plan j = Some c
             /\ rocketpy (flight_calls s ++ firstn j plan) c = Some e
             /\ (forall i c',
                   (i < j)%nat -> nth_error plan i = Some c' ->
                   rocketpy (flight_calls s ++ firstn i plan) c' = None)
             /\ run provider rocketpy s
                = (Raise e,
                   mkSession after (flight_calls s ++ firstn (S j) plan))).
Proof.
  destruct binary64_motor_and_rocket as (motor & rocket & Hm & Hr & _).
  pose proof (build_environment_outcome (F:=float) provider (outside s)) as He.
  exists motor, rocket. do 2 eexists.
  split; [exact Hm |]. split; [exact Hr |]. split; [exact He |].
  split.
  - destruct (provider (forecast_requests (outside s))) as [| e] eqn:Hp.
    + now rewrite (build_environment_served (F:=float) provider _ Hp).
    + now rewrite (build_environment_failed (F:=float) provider _ e Hp).
  - cbv zeta.
    rewrite (run_is_attempt provider rocketpy s motor rocket _ _ He Hm Hr).
    match goal with
    | |- context [attempt _ ?plan ?st] =>
        exact (attempt_outcome rocketpy plan st)
    end.
Qed.
